(** * Student Performance Dashboard: the filter-and-aggregate logic of
    [student.py], embedded in Rocq.

    [student.py] is a Streamlit script: every user interaction reruns it from
    top to bottom against the current widget values.  One rerun is modelled as
    a function from the loaded table and the widget values to the sequence of
    elements the script renders, together with how the rerun ended.

    Modelling conventions.
    - A table ([pandas.DataFrame]) is the list of its rows, in index order.
      Boolean-mask selection [df[mask]] is [List.filter].
    - Text columns are ASCII strings; numeric columns are exact rationals
      ([Q]).  The script computes with binary floating point; the model
      computes the same means and roundings exactly.  The one float value
      that is not a number is kept: [None] stands for NaN, which is what the
      mean of an empty column is.
    - Rows with missing cells are not modelled. *)

From Stdlib Require Import List String Ascii Bool ZArith QArith Qround.
From Stdlib Require Import Lqa Permutation Sorted.
Import ListNotations.

Open Scope string_scope.
Open Scope list_scope.

(** ** Rows and tables *)

(** One row of [students_data.csv]; the columns are
    [Name, Course, City, Gender, Marks, Attendance (%)]. *)
Record record : Type := mkRecord {
  Name : string;
  Course : string;
  City : string;
  Gender : string;
  Marks : Q;
  Attendance : Q
}.

Definition table := list record.

(** [pd.DataFrame(data)] for the six columns of [data]: row [i] takes the
    [i]-th entry of every column. *)
Fixpoint DataFrame (names courses cities genders : list string)
                   (marks attendance : list Q) : table :=
  match names, courses, cities, genders, marks, attendance with
  | n :: ns, c :: cs, t :: ts, g :: gs, m :: ms, a :: az =>
      mkRecord n c t g m a :: DataFrame ns cs ts gs ms az
  | _, _, _, _, _, _ => []
  end.

(** The mock table of lines 15-23. *)
Definition data_Name : list string :=
  ["Alice"; "Bob"; "Charlie"; "David"; "Eve"; "Fiona"; "George"; "Hannah";
   "Ian"; "Jasmine"].
Definition data_Course : list string :=
  ["Math"; "Science"; "Math"; "English"; "Science"; "Math"; "English";
   "Science"; "Math"; "English"].
Definition data_City : list string :=
  ["New York"; "Los Angeles"; "New York"; "Chicago"; "Los Angeles";
   "New York"; "Chicago"; "Los Angeles"; "New York"; "Chicago"].
Definition data_Gender : list string :=
  ["Female"; "Male"; "Male"; "Male"; "Female"; "Female"; "Male"; "Female";
   "Male"; "Female"].
Definition data_Marks : list Q :=
  [95; 82; 78; 91; 65; 88; 72; 98; 55; 85]%Q.
Definition data_Attendance : list Q :=
  [98; 85; 76; 92; 60; 90; 75; 99; 50; 88]%Q.

Definition data : table :=
  DataFrame data_Name data_Course data_City data_Gender
            data_Marks data_Attendance.

(** ** The pandas operations the script uses *)

Module pd.

(** [Series.isin(values)], for one cell. *)
Definition isin (x : string) (values : list string) : bool :=
  existsb (String.eqb x) values.

(** [Series.unique()]: the distinct values in order of first appearance. *)
Fixpoint unique_from (seen : list string) (l : list string) : list string :=
  match l with
  | [] => []
  | x :: l' =>
      if isin x seen then unique_from seen l'
      else x :: unique_from (x :: seen) l'
  end.
Definition unique (l : list string) : list string := unique_from [] l.

Definition sum (l : list Q) : Q := fold_right Qplus 0%Q l.

(** [Series.mean()]: NaN ([None]) on an empty column.  The sum and the
    quotient are exact here; the script's are binary64, which agrees as
    long as the sums are integers below 2^53 and differs in the last place
    otherwise. *)
Definition mean (l : list Q) : option Q :=
  match l with
  | [] => None
  | _ => Some (sum l / inject_Z (Z.of_nat (List.length l)))%Q
  end.

(** Rounding to the nearest integer, ties to the even one. *)
Definition rint (q : Q) : Z :=
  let f := Qfloor q in
  match (q - inject_Z f ?= 1 # 2)%Q with
  | Lt => f
  | Gt => (f + 1)%Z
  | Eq => if Z.even f then f else (f + 1)%Z
  end.

(** [round(x, 2)] on a float: scale by 100, round half to even, scale
    back; NaN stays NaN.  Exact here; the script rounds a binary64 value,
    so results may differ in the second decimal where the exact mean is
    within a rounding error of a tie. *)
Definition round2 (x : option Q) : option Q :=
  match x with
  | None => None
  | Some q => Some (Qred (inject_Z (rint (q * 100)) / 100))%Q
  end.

(** Comparisons of a float with a number: every comparison with NaN is
    false. *)
Definition gt (x : option Q) (y : Q) : bool :=
  match x with None => false | Some q => negb (Qle_bool q y) end.
Definition ge (x : option Q) (y : Q) : bool :=
  match x with None => false | Some q => Qle_bool y q end.

(** [sort_values(ascending=False)] on the key [key]: the rows by
    non-increasing key.  pandas' default sort leaves the order among rows
    of equal key open; the model keeps them in table order. *)
Section Sort.
Context {A : Type} (key : A -> Q).

Fixpoint insert_desc (x : A) (l : list A) : list A :=
  match l with
  | [] => [x]
  | y :: l' =>
      if Qle_bool (key y) (key x) then x :: l
      else y :: insert_desc x l'
  end.

Definition sort_values_desc (l : list A) : list A :=
  fold_right insert_desc [] l.
End Sort.

End pd.

(** ** Widget values of one rerun *)

Record widgets : Type := mkWidgets {
  course_filter : string;        (* st.sidebar.selectbox *)
  city_filter : list string;     (* st.sidebar.multiselect *)
  min_marks : Z;                 (* st.sidebar.slider, integer bounds *)
  gender_filter : string;        (* st.sidebar.radio *)
  search_name : string;          (* st.text_input *)
  show_top : bool;               (* st.button "Show Top Performers" *)
  show_all : bool                (* st.button "Show All Data" *)
}.

(** The options offered by the two sidebar selectors built from the table
    (lines 30-38). *)
Definition course_options (df : table) : list string :=
  "All" :: pd.unique (map Course df).
Definition city_options (df : table) : list string :=
  "All" :: pd.unique (map City df).

(** ** Filtering (lines 51-57) *)

Definition filtered_df (df : table) (w : widgets) : table :=
  let filtered_df := df in
  let filtered_df :=
    if negb (course_filter w =? "All")
    then filter (fun r => Course r =? course_filter w) filtered_df
    else filtered_df in
  let filtered_df :=
    filter (fun r => pd.isin (City r) (city_filter w)) filtered_df in
  let filtered_df :=
    filter (fun r => Qle_bool (inject_Z (min_marks w)) (Marks r))
           filtered_df in
  let filtered_df :=
    if negb (gender_filter w =? "All")
    then filter (fun r => Gender r =? gender_filter w) filtered_df
    else filtered_df in
  filtered_df.

(** ** Aggregates (lines 66-68) and the performance banner (lines 78-84) *)

Definition avg_marks (filtered_df : table) : option Q :=
  pd.round2 (pd.mean (map Marks filtered_df)).
Definition avg_attendance (filtered_df : table) : option Q :=
  pd.round2 (pd.mean (map Attendance filtered_df)).
Definition total_students (filtered_df : table) : nat :=
  List.length filtered_df.

Inductive tier : Type := excellent | good | needs_improvement.

Definition performance_tier (avg_marks : option Q) : tier :=
  if pd.gt avg_marks 85 then excellent
  else if pd.ge avg_marks 70 then good
  else needs_improvement.

(** ** Regular-expression search, as [Series.str.contains] uses it

    [str.contains(pat, case=False, na=False)] leaves [regex] at its default
    [True]: the pattern is compiled by Python's [re] with [re.IGNORECASE] and
    a cell matches when [re.search] finds a match anywhere in it.  The model
    covers the patterns made of ordinary characters and the wildcard [.];
    for any other pattern [compile] answers [None], whether Python compiles
    it (as it does [^a]) or raises [re.error] on it (as on [a(]), and the
    model says nothing about what the search does. *)

Module re.

(** The characters that are not ordinary in a pattern. *)
Definition special_chars : list ascii :=
  list_ascii_of_string ".^$*+?{}[]\|()".
Definition special (c : ascii) : bool :=
  existsb (Ascii.eqb c) special_chars.

Inductive atom : Type :=
| Lit (c : ascii)   (* an ordinary character, matching itself *)
| Dot.              (* [.]: any character but a newline *)

Fixpoint compile (pat : string) : option (list atom) :=
  match pat with
  | EmptyString => Some []
  | String c pat' =>
      if Ascii.eqb c "." then option_map (cons Dot) (compile pat')
      else if special c then None
      else option_map (cons (Lit c)) (compile pat')
  end.

(** Case folding of [re.IGNORECASE] on ASCII text. *)
Definition lower (c : ascii) : ascii :=
  let n := N_of_ascii c in
  if ((65 <=? n) && (n <=? 90))%N then ascii_of_N (n + 32) else c.

Definition newline : ascii := ascii_of_N 10.

Definition matches (a : atom) (c : ascii) : bool :=
  match a with
  | Lit x => Ascii.eqb (lower x) (lower c)
  | Dot => negb (Ascii.eqb c newline)
  end.

(** A match of the whole pattern starting at the head of [s]. *)
Fixpoint match_here (p : list atom) (s : string) : bool :=
  match p, s with
  | [], _ => true
  | a :: p', String c s' => matches a c && match_here p' s'
  | _ :: _, EmptyString => false
  end.

(** [re.search]: a match starting at some position of [s]. *)
Fixpoint search (p : list atom) (s : string) : bool :=
  match_here p s
  || match s with
     | EmptyString => false
     | String _ s' => search p s'
     end.

End re.

(** [result] of line 123: [df[df["Name"].str.contains(search_name,
    case=False, na=False)]]. *)
Definition result (df : table) (search_name : string) : option table :=
  option_map (fun p => filter (fun r => re.search p (Name r)) df)
             (re.compile search_name).

(** [top_students] of line 132. *)
Definition top_students (df : table) : table :=
  pd.sort_values_desc Marks
    (filter (fun r => negb (Qle_bool (Marks r) 90)) df).

(** The two chart series of lines 95 and 99: (name, value) pairs by
    non-increasing value. *)
Definition marks_chart_df (filtered_df : table) : list (string * Q) :=
  pd.sort_values_desc snd (map (fun r => (Name r, Marks r)) filtered_df).
Definition attendance_chart_df (filtered_df : table) : list (string * Q) :=
  pd.sort_values_desc snd (map (fun r => (Name r, Attendance r)) filtered_df).

(** ** The rendering side of Streamlit

    A rerun appends elements to the page.  [st.stop()] ends the rerun at
    once: nothing after it is executed.  Static text (title, headers,
    captions, layout containers) carries no data and is left out. *)

Module st.

Inductive message : Type :=
| mock_data_notice          (* line 14 *)
| no_data_matches           (* line 60 *)
| excellent_performance     (* line 80 *)
| good_performance          (* line 82 *)
| needs_improvement_notice  (* line 84 *)
| no_student_found          (* line 127 *)
| showing_top.              (* line 133 *)

Inductive element : Type :=
| error (m : message)
| warning (m : message)
| success (m : message)
| info (m : message)
| balloons
| metric (label : string) (value : option Q)
| bar_chart (series : list (string * Q))
| line_chart (series : list (string * Q))
| pyplot_hist (values : list Q) (bins : nat)
| dataframe (rows : table)
| table (rows : table).

(** How a (part of a) rerun ended. *)
Inductive status (A : Type) : Type :=
| Next (a : A)      (* ran to its end *)
| Stop              (* [st.stop()] was called *)
| Unmodelled.       (* left the modelled fragment of [re] *)
Arguments Next {A} a.
Arguments Stop {A}.
Arguments Unmodelled {A}.

Definition script (A : Type) : Type := (list element * status A)%type.

Definition ret {A} (a : A) : script A := ([], Next a).

Definition bind {A B} (m : script A) (k : A -> script B) : script B :=
  match m with
  | (out, Next a) => let (out', s) := k a in (out ++ out', s)
  | (out, Stop) => (out, Stop)
  | (out, Unmodelled) => (out, Unmodelled)
  end.

Definition emit (e : element) : script unit := ([e], Next tt).
Definition stop : script unit := ([], Stop).
Definition unmodelled : script unit := ([], Unmodelled).

Definition page {A} (m : script A) : list element := fst m.

Module Notations.
Notation "x <- m ;; k" := (bind m (fun x => k))
  (at level 61, m at next level, right associativity).
Notation "m ;; k" := (bind m (fun _ => k))
  (at level 61, right associativity).
End Notations.

End st.

Import st.Notations.

(** ** The script, section by section *)

(** Lines 11-23: the CSV file, or the mock table with an error box when the
    file is missing ([None]). *)
Definition load (csv : option table) : st.script table :=
  match csv with
  | Some df => st.ret df
  | None => st.emit (st.error st.mock_data_notice) ;; st.ret data
  end.

(** Lines 59-61. *)
Definition guard_empty (filtered_df : table) : st.script unit :=
  match filtered_df with
  | [] => st.emit (st.warning st.no_data_matches) ;; st.stop
  | _ :: _ => st.ret tt
  end.

(** Lines 63-85. *)
Definition key_performance_indicators (filtered_df : table)
  : st.script unit :=
  let avg_marks := avg_marks filtered_df in
  let avg_attendance := avg_attendance filtered_df in
  let total_students := total_students filtered_df in
  st.emit (st.metric "Total Students"
             (Some (inject_Z (Z.of_nat total_students)))) ;;
  st.emit (st.metric "Average Marks" avg_marks) ;;
  st.emit (st.metric "Average Attendance (%)" avg_attendance) ;;
  match performance_tier avg_marks with
  | excellent =>
      st.emit st.balloons ;; st.emit (st.success st.excellent_performance)
  | good => st.emit (st.info st.good_performance)
  | needs_improvement => st.emit (st.warning st.needs_improvement_notice)
  end.

(** Lines 87-114.  The elements are recorded with the data handed to them;
    what matplotlib does with the values (binning, and its failure on a
    degenerate floating-point range) is not modelled. *)
Definition visualizations (filtered_df : table) : st.script unit :=
  st.emit (st.bar_chart (marks_chart_df filtered_df)) ;;
  st.emit (st.line_chart (attendance_chart_df filtered_df)) ;;
  st.emit (st.pyplot_hist (map Marks filtered_df) 10) ;;
  st.emit (st.dataframe filtered_df).

(** Lines 119-127. *)
Definition search_section (df : table) (search_name : string)
  : st.script unit :=
  if negb (search_name =? "") then
    match result df search_name with
    | None => st.unmodelled
    | Some result =>
        match result with
        | _ :: _ => st.emit (st.table result)
        | [] => st.emit (st.error st.no_student_found)
        end
    end
  else st.ret tt.

(** Lines 129-134. *)
Definition top_section (df : table) (pressed : bool) : st.script unit :=
  if pressed then
    let top_students := top_students df in
    st.emit (st.success st.showing_top) ;;
    st.emit (st.dataframe top_students)
  else st.ret tt.

(** Lines 136-139. *)
Definition all_section (df : table) (pressed : bool) : st.script unit :=
  if pressed then st.emit (st.dataframe df) else st.ret tt.

(** Lines 116-139. *)
Definition quick_actions (df : table) (w : widgets) : st.script unit :=
  search_section df (search_name w) ;;
  top_section df (show_top w) ;;
  all_section df (show_all w).

(** One rerun over the loaded table [df] (lines 51-139). *)
Definition dashboard (df : table) (w : widgets) : st.script unit :=
  let filtered_df := filtered_df df w in
  guard_empty filtered_df ;;
  key_performance_indicators filtered_df ;;
  visualizations filtered_df ;;
  quick_actions df w.

(** One rerun of the whole script. *)
Definition student (csv : option table) (w : widgets) : st.script unit :=
  df <- load csv ;; dashboard df w.

(** ** Specification-side vocabulary *)

(** The four filter conditions, as the specification words them; compared
    with [filtered_df] below. *)
Definition satisfies (w : widgets) (r : record) : bool :=
  ((course_filter w =? "All") || (Course r =? course_filter w))
  && pd.isin (City r) (city_filter w)
  && Qle_bool (inject_Z (min_marks w)) (Marks r)
  && ((gender_filter w =? "All") || (Gender r =? gender_filter w)).

Definition Satisfies (w : widgets) (r : record) : Prop :=
  (course_filter w = "All" \/ Course r = course_filter w)
  /\ In (City r) (city_filter w)
  /\ (inject_Z (min_marks w) <= Marks r)%Q
  /\ (gender_filter w = "All" \/ Gender r = gender_filter w).

(** [Subseq l1 l2]: [l1] is [l2] with some entries dropped, the others kept
    in place. *)
Inductive Subseq {A : Type} : list A -> list A -> Prop :=
| Subseq_nil : Subseq [] []
| Subseq_skip x l1 l2 : Subseq l1 l2 -> Subseq l1 (x :: l2)
| Subseq_keep x l1 l2 : Subseq l1 l2 -> Subseq (x :: l1) (x :: l2).

(** The rows of the mock table. *)
Definition Alice := mkRecord "Alice" "Math" "New York" "Female" 95 98.
Definition Charlie := mkRecord "Charlie" "Math" "New York" "Male" 78 76.
Definition David := mkRecord "David" "English" "Chicago" "Male" 91 92.
Definition Fiona := mkRecord "Fiona" "Math" "New York" "Female" 88 90.
Definition Hannah := mkRecord "Hannah" "Science" "Los Angeles" "Female" 98 99.
Definition Ian := mkRecord "Ian" "Math" "New York" "Male" 55 50.

(** The table a rerun works on. *)
Definition loaded (csv : option table) : table :=
  match csv with Some df => df | None => data end.

(** The tables ([st.table]) on a page, in order.  Only the search renders
    one. *)
Fixpoint tables (page : list st.element) : list table :=
  match page with
  | [] => []
  | st.table rows :: page' => rows :: tables page'
  | _ :: page' => tables page'
  end.

(** Case-insensitive substring test, as the specification words the name
    search; compared with [result] below.  Letter case is that of the 26
    letters of the ASCII alphabet, read off the two alphabets below and not
    off [re.lower]. *)
Definition capitals : string := "ABCDEFGHIJKLMNOPQRSTUVWXYZ".
Definition smalls : string := "abcdefghijklmnopqrstuvwxyz".

Fixpoint small_of (caps lows : string) (c : ascii) : ascii :=
  match caps, lows with
  | String a caps', String b lows' =>
      if Ascii.eqb c a then b else small_of caps' lows' c
  | _, _ => c
  end.

(** The small letter of a capital letter; any other character itself. *)
Definition small (c : ascii) : ascii := small_of capitals smalls c.

Fixpoint lowercase (s : string) : string :=
  match s with
  | EmptyString => EmptyString
  | String c s' => String (small c) (lowercase s')
  end.

(** Text made of ASCII characters only (codes below 128). *)
Definition ascii_text (s : string) : bool :=
  forallb (fun c => (N_of_ascii c <? 128)%N) (list_ascii_of_string s).

Fixpoint starts_with (a s : string) : bool :=
  match a, s with
  | EmptyString, _ => true
  | String x a', String y s' => Ascii.eqb x y && starts_with a' s'
  | String _ _, EmptyString => false
  end.

Fixpoint substringb (a s : string) : bool :=
  starts_with a s
  || match s with
     | EmptyString => false
     | String _ s' => substringb a s'
     end.

Definition name_contains (query name : string) : bool :=
  substringb (lowercase query) (lowercase name).

(** A query none of whose characters is special in a regular expression. *)
Definition plain (query : string) : bool :=
  forallb (fun c => negb (re.special c)) (list_ascii_of_string query).

(** [desc_by key x y]: [x] may come before [y] in a list by non-increasing
    [key]. *)
Definition desc_by {A : Type} (key : A -> Q) (x y : A) : Prop :=
  (key y <= key x)%Q.

(** * Proofs *)

(** ** The model on small inputs *)

Example round2_half_even :
  pd.round2 (Some (1 # 8)%Q) = Some (3 # 25)%Q
  /\ pd.round2 (Some (3 # 8)%Q) = Some (19 # 50)%Q
  /\ pd.round2 (pd.mean [95; 91; 98]%Q) = Some (9467 # 100)%Q
  /\ pd.round2 (pd.mean []) = None.
Proof. repeat split. Qed.

Example sort_values_desc_ties :
  pd.sort_values_desc snd [("a", 1); ("b", 3); ("c", 1); ("d", 3)]%Q
  = [("b", 3); ("d", 3); ("a", 1); ("c", 1)]%Q.
Proof. reflexivity. Qed.

Example plain_queries :
  plain "an" = true /\ plain "" = true /\ plain "Mary Ann" = true
  /\ plain "." = false /\ plain "a(" = false /\ plain "a\b" = false.
Proof. repeat split. Qed.

Example search_section_not_found :
  search_section data "zz" = ([st.error st.no_student_found], st.Next tt).
Proof. reflexivity. Qed.

Example search_section_ignores_case :
  option_map (map Name) (result data "ALI") = Some ["Alice"].
Proof. reflexivity. Qed.

Example search_section_outside_fragment :
  search_section data "a(" = ([], st.Unmodelled).
Proof. reflexivity. Qed.

(** ** Lists *)

Lemma filter_filter {A} (f g : A -> bool) (l : list A) :
  filter f (filter g l) = filter (fun x => g x && f x) l.
Proof.
  induction l as [|x l IH]; simpl; [reflexivity|].
  destruct (g x); simpl; [destruct (f x)|]; rewrite IH; reflexivity.
Qed.

Lemma Subseq_filter {A} (f : A -> bool) (l : list A) : Subseq (filter f l) l.
Proof.
  induction l as [|x l IH]; simpl; [constructor|].
  destruct (f x); now constructor.
Qed.

Lemma Subseq_In {A} (l1 l2 : list A) :
  Subseq l1 l2 -> forall x, In x l1 -> In x l2.
Proof.
  induction 1; simpl; intros y Hy; [assumption | right; auto |].
  destruct Hy; [left; assumption | right; auto].
Qed.

(** ** Filtering *)

Lemma isin_In x values : pd.isin x values = true <-> In x values.
Proof.
  unfold pd.isin. rewrite existsb_exists. split.
  - intros [y [Hy E]]. apply String.eqb_eq in E. now subst.
  - intros H. exists x. split; [assumption | apply String.eqb_refl].
Qed.

(** The chain of mask selections is one selection by the conjunction. *)
Lemma filtered_df_satisfies df w : filtered_df df w = filter (satisfies w) df.
Proof.
  unfold filtered_df, satisfies.
  destruct (course_filter w =? "All"), (gender_filter w =? "All"); simpl;
    rewrite !filter_filter; apply filter_ext; intros r;
    rewrite ?andb_true_r, ?andb_assoc; reflexivity.
Qed.

Lemma satisfies_Satisfies w r : satisfies w r = true <-> Satisfies w r.
Proof.
  unfold satisfies, Satisfies.
  rewrite !andb_true_iff, !orb_true_iff, !String.eqb_eq, isin_In,
    Qle_bool_iff.
  tauto.
Qed.

Lemma filtered_df_no_city df w :
  (forall r, In r df -> ~ In (City r) (city_filter w)) ->
  filtered_df df w = [].
Proof.
  intros H. rewrite filtered_df_satisfies.
  induction df as [|r df IH]; simpl; [reflexivity|].
  destruct (satisfies w r) eqn:E.
  - apply satisfies_Satisfies in E. destruct E as (_ & Hc & _).
    exfalso. apply (H r); [now left | assumption].
  - apply IH. intros r' Hr'. apply H. now right.
Qed.

(** C1. For every table and widget values, the filtered table is exactly the
    rows, in table order and with their multiplicity, that satisfy all four
    conditions: course is "All" or equal, city is among the selected cities,
    marks are at least the minimum (inclusive), gender is "All" or equal.
    With no city selected the filtered table is empty. *)
Theorem C1_filter_is_conjunction :
  forall df w,
    filtered_df df w = filter (satisfies w) df
    /\ (forall r, satisfies w r = true <-> Satisfies w r)
    /\ (forall r, In r (filtered_df df w) <-> In r df /\ Satisfies w r)
    /\ (forall c m g s t a, filtered_df df (mkWidgets c [] m g s t a) = []).
Proof.
  intros df w. split; [apply filtered_df_satisfies|].
  split; [intros r; apply satisfies_Satisfies|]. split.
  - intros r. rewrite filtered_df_satisfies, filter_In, satisfies_Satisfies.
    reflexivity.
  - intros c m g s t a. apply filtered_df_no_city. simpl. auto.
Qed.

(** C8. For every table and widget values, the filtered table is a
    subsequence of the table: every row of it is a row of the table, and the
    rows keep their relative order. *)
Theorem C8_filter_is_subsequence :
  forall df w,
    Subseq (filtered_df df w) df
    /\ (forall r, In r (filtered_df df w) -> In r df).
Proof.
  intros df w.
  assert (H : Subseq (filtered_df df w) df)
    by (rewrite filtered_df_satisfies; apply Subseq_filter).
  split; [assumption | apply Subseq_In; assumption].
Qed.

(** C10. "All" is offered among the city options, and it is matched as a
    city name: on a table none of whose rows has the city "All", selecting
    just "All" gives the empty filtered table, whatever the other three
    filters are (in particular when they restrict nothing). *)
Theorem C10_city_All_is_literal :
  forall df w,
    (forall r, In r df -> City r <> "All") ->
    city_filter w = ["All"] ->
    In "All" (city_options df) /\ filtered_df df w = [].
Proof.
  intros df w Hno Hsel. split; [now left|].
  apply filtered_df_no_city. rewrite Hsel. intros r Hr [E|[]].
  apply (Hno r Hr). now symmetry.
Qed.

Lemma C10_witness :
  In "All" (city_options data)
  /\ filtered_df data (mkWidgets "All" ["All"] 0 "All" "" false false) = [].
Proof.
  apply (C10_city_All_is_literal data
           (mkWidgets "All" ["All"] 0 "All" "" false false)).
  - intros r Hr. vm_compute in Hr.
    repeat (destruct Hr as [<-|Hr]; [discriminate|]). destruct Hr.
  - reflexivity.
Defined.

(** ** Reruns *)

Lemma bind_Next {A B} (m : st.script A) (k : A -> st.script B) out a :
  m = (out, st.Next a) ->
  st.bind m k = (out ++ st.page (k a), snd (k a)).
Proof. intros ->. unfold st.bind, st.page. now destruct (k a). Qed.

Lemma student_dashboard csv w :
  student csv w =
  (st.page (load csv) ++ st.page (dashboard (loaded csv) w),
   snd (dashboard (loaded csv) w)).
Proof.
  unfold student. destruct csv as [df|]; simpl;
    now destruct (dashboard _ w).
Qed.

Lemma dashboard_empty df w :
  filtered_df df w = [] ->
  dashboard df w = ([st.warning st.no_data_matches], st.Stop).
Proof. unfold dashboard. now intros ->. Qed.

Lemma key_performance_indicators_Next f :
  exists banner,
    key_performance_indicators f =
    (st.metric "Total Students" (Some (inject_Z (Z.of_nat (total_students f))))
       :: st.metric "Average Marks" (avg_marks f)
       :: st.metric "Average Attendance (%)" (avg_attendance f)
       :: banner, st.Next tt)
    /\ forall label v, ~ In (st.metric label v) banner.
Proof.
  unfold key_performance_indicators.
  destruct (performance_tier (avg_marks f)); simpl;
    eexists; (split; [reflexivity|]); simpl; intros label v H;
    intuition discriminate.
Qed.

Lemma visualizations_Next f :
  visualizations f =
  ([st.bar_chart (marks_chart_df f); st.line_chart (attendance_chart_df f);
    st.pyplot_hist (map Marks f) 10; st.dataframe f], st.Next tt).
Proof. reflexivity. Qed.

(** A rerun that passes the guard renders the indicators and charts of the
    filtered table and then the quick actions, which read the whole table. *)
Lemma dashboard_nonempty df w :
  filtered_df df w <> [] ->
  dashboard df w =
  (st.page (key_performance_indicators (filtered_df df w))
     ++ st.page (visualizations (filtered_df df w))
     ++ st.page (quick_actions df w),
   snd (quick_actions df w)).
Proof.
  intros Hne. unfold dashboard.
  destruct (filtered_df df w) as [|r f] eqn:E; [congruence|].
  destruct (key_performance_indicators_Next (r :: f)) as (banner & -> & _).
  rewrite visualizations_Next. simpl.
  destruct (quick_actions df w) as [out s]. simpl.
  reflexivity.
Qed.

Lemma quick_actions_no_metric df w label v :
  ~ In (st.metric label v) (st.page (quick_actions df w)).
Proof.
  unfold quick_actions, search_section, top_section, all_section.
  destruct (search_name w =? ""), (result df (search_name w)) as [[|r l]|],
    (show_top w), (show_all w); simpl; intuition discriminate.
Qed.

Lemma mean_nonempty (l : list Q) :
  l <> [] -> exists a, pd.mean l = Some a.
Proof. destruct l; [congruence | intros _; eexists; reflexivity]. Qed.

Lemma avg_marks_nonempty f : f <> [] -> exists a, avg_marks f = Some a.
Proof.
  intros H. unfold avg_marks.
  destruct (mean_nonempty (map Marks f)) as [a ->];
    [destruct f; [congruence | discriminate] | eexists; reflexivity].
Qed.

Lemma avg_attendance_nonempty f :
  f <> [] -> exists a, avg_attendance f = Some a.
Proof.
  intros H. unfold avg_attendance.
  destruct (mean_nonempty (map Attendance f)) as [a ->];
    [destruct f; [congruence | discriminate] | eexists; reflexivity].
Qed.

(** C4. When the filtered table is empty the rerun renders the "no data
    matches" warning and stops; a metric is rendered only in a rerun whose
    filtered table is not empty, and its value is then a number (no mean of
    an empty column is ever taken).  With course "All", no city selected,
    minimum 0 and gender "All", every table gives the empty filtered table
    and the warning. *)
Theorem C4_empty_filter_stops_before_metrics :
  forall df w,
    (filtered_df df w = [] ->
     dashboard df w = ([st.warning st.no_data_matches], st.Stop))
    /\ (forall label v,
          In (st.metric label v) (st.page (dashboard df w)) ->
          filtered_df df w <> [] /\ v <> None)
    /\ (forall s t a,
          filtered_df df (mkWidgets "All" [] 0 "All" s t a) = []
          /\ dashboard df (mkWidgets "All" [] 0 "All" s t a) =
             ([st.warning st.no_data_matches], st.Stop)).
Proof.
  intros df w. split; [apply dashboard_empty|]. split.
  - intros label v Hin.
    destruct (filtered_df df w) as [|r f] eqn:E.
    + rewrite (dashboard_empty df w E) in Hin. simpl in Hin.
      intuition discriminate.
    + split; [discriminate|].
      assert (Hne : filtered_df df w <> []) by (rewrite E; discriminate).
      rewrite (dashboard_nonempty df w Hne), E in Hin.
      destruct (key_performance_indicators_Next (r :: f))
        as (banner & Ek & Hb).
      rewrite Ek, visualizations_Next in Hin. unfold st.page in Hin.
      simpl in Hin.
      destruct (avg_marks_nonempty (r :: f)) as [a Ea]; [discriminate|].
      destruct (avg_attendance_nonempty (r :: f)) as [b Eb]; [discriminate|].
      rewrite Ea, Eb in Hin.
      destruct Hin as [H|[H|[H|H]]];
        try (injection H as _ <-; discriminate).
      apply in_app_or in H. destruct H as [H|H]; [now apply Hb in H|].
      simpl in H. destruct H as [H|[H|[H|[H|H]]]]; try discriminate.
      now apply quick_actions_no_metric in H.
  - intros s t a.
    assert (E : filtered_df df (mkWidgets "All" [] 0 "All" s t a) = [])
      by (apply filtered_df_no_city; simpl; auto).
    split; [assumption | now apply dashboard_empty].
Qed.

Lemma C4_witness :
  let w := mkWidgets "Science" ["Chicago"] 0 "All" "an" true true in
  filtered_df data w = []
  /\ dashboard data w = ([st.warning st.no_data_matches], st.Stop).
Proof.
  intros w. split; [reflexivity|].
  apply (proj1 (C4_empty_filter_stops_before_metrics data w)).
  reflexivity.
Defined.

(** C9. When the filtered table is empty the whole rerun ends at the
    warning: the page holds what loading rendered and the warning, and
    neither a search table, a "no student found" error, the top-performers
    notice, nor any data frame, whatever the search text and the buttons. *)
Theorem C9_empty_filter_halts_rerun :
  forall csv w,
    filtered_df (loaded csv) w = [] ->
    student csv w =
      (st.page (load csv) ++ [st.warning st.no_data_matches], st.Stop)
    /\ (forall rows, ~ In (st.table rows) (st.page (student csv w)))
    /\ (forall rows, ~ In (st.dataframe rows) (st.page (student csv w)))
    /\ ~ In (st.error st.no_student_found) (st.page (student csv w))
    /\ ~ In (st.success st.showing_top) (st.page (student csv w)).
Proof.
  intros csv w E.
  rewrite student_dashboard, (dashboard_empty _ w E).
  split; [reflexivity|].
  destruct csv as [df|]; simpl; repeat split; try intros rows;
    intuition discriminate.
Qed.

Lemma C9_witness :
  let w := mkWidgets "All" [] 0 "All" "an" true true in
  filtered_df (loaded None) w = []
  /\ student None w =
     ([st.error st.mock_data_notice; st.warning st.no_data_matches], st.Stop).
Proof.
  intros w. split; [reflexivity|].
  apply (C9_empty_filter_halts_rerun None w). reflexivity.
Defined.

(** ** The performance banner *)

Lemma Qle_bool_false x y : Qle_bool x y = false <-> (y < x)%Q.
Proof.
  split.
  - intros E. apply Qnot_le_lt. intros H.
    apply Qle_bool_iff in H. congruence.
  - intros H. destruct (Qle_bool x y) eqn:E; [|reflexivity].
    apply Qle_bool_iff in E. exfalso. apply (Qlt_not_le _ _ H E).
Qed.

Lemma performance_tier_spec (a : Q) :
  (performance_tier (Some a) = excellent <-> (85 < a)%Q)
  /\ (performance_tier (Some a) = good <-> (70 <= a)%Q /\ (a <= 85)%Q)
  /\ (performance_tier (Some a) = needs_improvement <-> (a < 70)%Q).
Proof.
  unfold performance_tier, pd.gt, pd.ge.
  destruct (Qle_bool a 85) eqn:E1; simpl.
  - apply Qle_bool_iff in E1.
    destruct (Qle_bool 70 a) eqn:E2.
    + apply Qle_bool_iff in E2.
      repeat split; intros; try discriminate; try assumption; lra.
    + apply Qle_bool_false in E2.
      repeat split; intros; try discriminate; try assumption; lra.
  - apply Qle_bool_false in E1.
    repeat split; intros; try discriminate; try assumption; lra.
Qed.

(** C5. For every non-empty filtered table the average marks are a number
    [a], and the banner is "excellent" exactly when [a > 85], "good" exactly
    when [70 <= a <= 85], "needs improvement" exactly when [a < 70]; the
    averages 70 and 85 themselves are both "good". *)
Theorem C5_tier_boundaries :
  forall subset : table,
    subset <> [] ->
    exists a,
      avg_marks subset = Some a
      /\ (performance_tier (avg_marks subset) = excellent <-> (85 < a)%Q)
      /\ (performance_tier (avg_marks subset) = good
          <-> (70 <= a)%Q /\ (a <= 85)%Q)
      /\ (performance_tier (avg_marks subset) = needs_improvement
          <-> (a < 70)%Q)
      /\ performance_tier (Some 70%Q) = good
      /\ performance_tier (Some 85%Q) = good.
Proof.
  intros subset Hne.
  destruct (avg_marks_nonempty subset Hne) as [a Ea].
  exists a. rewrite Ea.
  destruct (performance_tier_spec a) as (H1 & H2 & H3).
  repeat split; try apply H1; try apply H2; try apply H3; auto.
Qed.

Lemma C5_witness :
  [Fiona; Ian] <> []
  /\ exists a,
      avg_marks [Fiona; Ian] = Some a
      /\ (performance_tier (avg_marks [Fiona; Ian]) = excellent
          <-> (85 < a)%Q)
      /\ (performance_tier (avg_marks [Fiona; Ian]) = good
          <-> (70 <= a)%Q /\ (a <= 85)%Q)
      /\ (performance_tier (avg_marks [Fiona; Ian]) = needs_improvement
          <-> (a < 70)%Q)
      /\ performance_tier (Some 70%Q) = good
      /\ performance_tier (Some 85%Q) = good.
Proof.
  split; [discriminate|].
  apply (C5_tier_boundaries [Fiona; Ian]). discriminate.
Defined.

(** ** The mock table under two filter settings *)

Example data_rows :
  data =
  [Alice; mkRecord "Bob" "Science" "Los Angeles" "Male" 82 85; Charlie;
   David; mkRecord "Eve" "Science" "Los Angeles" "Female" 65 60; Fiona;
   mkRecord "George" "English" "Chicago" "Male" 72 75; Hannah; Ian;
   mkRecord "Jasmine" "English" "Chicago" "Female" 85 88].
Proof. reflexivity. Qed.

(** C2, as stated, fails: with course "Math", city "New York", minimum 0 and
    gender "All" the mock table does not give the rows named Alice, Charlie
    and Ian only (Fiona is a Math / New York row too), and the average is
    not 76. *)
Lemma C2_counterexample :
  ~ (map Name
       (filtered_df data (mkWidgets "Math" ["New York"] 0 "All" "" false false))
     = ["Alice"; "Charlie"; "Ian"]
     /\ avg_marks
          (filtered_df data
             (mkWidgets "Math" ["New York"] 0 "All" "" false false))
        = Some 76%Q).
Proof. vm_compute. intros [H _]. discriminate H. Qed.

(** C2, amended. With course "Math", city "New York", minimum 0 and gender
    "All" the mock table gives its four Math / New York rows, Alice,
    Charlie, Fiona and Ian, in that order; their average marks are
    (95+78+88+55)/4 = 79.0 and the banner is "good". *)
Theorem C2_scenario_A :
  forall s t a,
    let w := mkWidgets "Math" ["New York"] 0 "All" s t a in
    filtered_df data w = [Alice; Charlie; Fiona; Ian]
    /\ map Name (filtered_df data w) = ["Alice"; "Charlie"; "Fiona"; "Ian"]
    /\ avg_marks (filtered_df data w) = Some 79%Q
    /\ performance_tier (avg_marks (filtered_df data w)) = good.
Proof. intros s t a. vm_compute. repeat split. Qed.

(** C3, as stated, fails: with course "All", every city of the mock table
    selected, minimum 90 and gender "All" the filtered table is not Alice
    and Hannah only (David has 91), and the average is not 96.5. *)
Lemma C3_counterexample :
  ~ (filtered_df data
       (mkWidgets "All" ["New York"; "Los Angeles"; "Chicago"] 90 "All"
                  "" false false)
     = [Alice; Hannah]
     /\ avg_marks
          (filtered_df data
             (mkWidgets "All" ["New York"; "Los Angeles"; "Chicago"] 90 "All"
                        "" false false))
        = Some (965 # 10)%Q).
Proof. vm_compute. intros [H _]. discriminate H. Qed.

(** C3, amended. With course "All", a city selection holding every city of
    the mock table, minimum 90 and gender "All" the mock table gives Alice
    (95), David (91) and Hannah (98), in that order; their average marks
    are round(284/3, 2) = 94.67 and the banner is "excellent". *)
Theorem C3_scenario_B :
  forall cities s t a,
    (forall r, In r data -> In (City r) cities) ->
    let w := mkWidgets "All" cities 90 "All" s t a in
    filtered_df data w = [Alice; David; Hannah]
    /\ avg_marks (filtered_df data w) = Some (9467 # 100)%Q
    /\ performance_tier (avg_marks (filtered_df data w)) = excellent.
Proof.
  intros cities s t a Hall w.
  assert (E : filtered_df data w = [Alice; David; Hannah]).
  { rewrite filtered_df_satisfies.
    rewrite (filter_ext_in (satisfies w)
               (fun r => Qle_bool 90 (Marks r))).
    - reflexivity.
    - intros r Hr. unfold satisfies, w. simpl.
      apply Hall, isin_In in Hr. rewrite Hr. simpl.
      apply andb_true_r. }
  rewrite E. vm_compute. repeat split.
Qed.

Lemma C3_witness :
  let w := mkWidgets "All" ["All"; "New York"; "Los Angeles"; "Chicago"]
                     90 "All" "" false false in
  filtered_df data w = [Alice; David; Hannah]
  /\ avg_marks (filtered_df data w) = Some (9467 # 100)%Q
  /\ performance_tier (avg_marks (filtered_df data w)) = excellent.
Proof.
  apply (C3_scenario_B ["All"; "New York"; "Los Angeles"; "Chicago"]
           "" false false).
  intros r Hr. vm_compute in Hr.
  repeat (destruct Hr as [<-|Hr]; [simpl; tauto|]). destruct Hr.
Defined.

(** ** Sorting *)

Section SortValues.
Context {A : Type} (key : A -> Q).

Lemma insert_desc_perm x l : Permutation (x :: l) (pd.insert_desc key x l).
Proof.
  induction l as [|y l IH]; simpl; [reflexivity|].
  destruct (Qle_bool (key y) (key x)); [reflexivity|].
  rewrite perm_swap. now constructor.
Qed.

Lemma sort_values_desc_perm l : Permutation l (pd.sort_values_desc key l).
Proof.
  induction l as [|x l IH]; simpl; [constructor|].
  rewrite <- insert_desc_perm. now constructor.
Qed.

Lemma insert_desc_sorted x l :
  StronglySorted (desc_by key) l -> StronglySorted (desc_by key) (pd.insert_desc key x l).
Proof.
  induction 1 as [|y l Hs IH Hy]; simpl.
  - repeat constructor.
  - destruct (Qle_bool (key y) (key x)) eqn:E.
    + apply Qle_bool_iff in E.
      constructor; [now constructor|].
      constructor; [exact E|].
      apply (Forall_impl _ (P := desc_by key y)); [|assumption].
      intros z Hz. unfold desc_by in *.
      apply (Qle_trans _ (key y)); assumption.
    + apply Qle_bool_false in E. constructor; [assumption|].
      apply (Permutation_Forall (insert_desc_perm x l)).
      constructor; [apply Qlt_le_weak, E | assumption].
Qed.

Lemma sort_values_desc_sorted l :
  StronglySorted (desc_by key) (pd.sort_values_desc key l).
Proof.
  induction l as [|x l IH]; simpl;
    [constructor | now apply insert_desc_sorted].
Qed.
End SortValues.

Lemma top_students_In df r :
  In r (top_students df) <-> In r df /\ (90 < Marks r)%Q.
Proof.
  unfold top_students. split.
  - intros H.
    apply (Permutation_in _ (Permutation_sym (sort_values_desc_perm _ _))) in H.
    apply filter_In in H. destruct H as [H1 H2].
    apply negb_true_iff, Qle_bool_false in H2. now split.
  - intros [H1 H2].
    apply (Permutation_in _ (sort_values_desc_perm _ _)).
    apply filter_In. split; [assumption|].
    now apply negb_true_iff, Qle_bool_false.
Qed.

Lemma quick_actions_top df w :
  show_top w = true ->
  snd (quick_actions df w) = st.Next tt ->
  exists before after,
    st.page (quick_actions df w) =
    before ++ [st.success st.showing_top; st.dataframe (top_students df)]
           ++ after.
Proof.
  unfold quick_actions, search_section, top_section, all_section.
  intros ->.
  destruct (search_name w =? ""), (result df (search_name w)) as [[|r l]|],
    (show_all w); simpl; intros H; try discriminate H;
    try (now exists [], []);
    try (now eexists [_], []);
    try (now eexists [], [_]);
    try (now eexists [_], [_]).
Qed.

Lemma dashboard_Next df w :
  snd (dashboard df w) = st.Next tt ->
  filtered_df df w <> [] /\ snd (quick_actions df w) = st.Next tt.
Proof.
  intros H. destruct (filtered_df df w) as [|r f] eqn:E.
  - rewrite (dashboard_empty df w E) in H. discriminate H.
  - assert (Hne : filtered_df df w <> []) by (rewrite E; discriminate).
    rewrite (dashboard_nonempty df w Hne) in H. now split.
Qed.

(** C7. The top performers are exactly the rows of the whole table with
    marks strictly above 90, each as often as the table has it, by
    non-increasing marks; a row with marks 90 is never among them.  They are
    computed from the whole table: in every rerun that runs to its end with
    the button pressed, whatever the filters, the page shows the notice
    followed by that same data frame. *)
Theorem C7_top_performers :
  forall df,
    (forall r, In r (top_students df) <-> In r df /\ (90 < Marks r)%Q)
    /\ (forall r, In r (top_students df) -> ~ (Marks r == 90)%Q)
    /\ Permutation (top_students df)
         (filter (fun r => negb (Qle_bool (Marks r) 90)) df)
    /\ StronglySorted (desc_by Marks) (top_students df)
    /\ (forall w,
          show_top w = true ->
          snd (dashboard df w) = st.Next tt ->
          exists before after,
            st.page (dashboard df w) =
            before ++ [st.success st.showing_top;
                       st.dataframe (top_students df)] ++ after).
Proof.
  intros df. split; [apply top_students_In|]. split.
  - intros r H E. apply top_students_In in H. destruct H as [_ H].
    rewrite E in H. now apply Qlt_irrefl in H.
  - split; [symmetry; apply sort_values_desc_perm|].
    split; [apply (sort_values_desc_sorted Marks)|].
    intros w Ht Hn. destruct (dashboard_Next df w Hn) as [Hne Hq].
    destruct (quick_actions_top df w Ht Hq) as (before & after & E).
    rewrite (dashboard_nonempty df w Hne), E. unfold st.page at 1. simpl fst.
    exists (st.page (key_performance_indicators (filtered_df df w))
            ++ st.page (visualizations (filtered_df df w)) ++ before), after.
    now rewrite <- !app_assoc.
Qed.

Lemma C7_witness :
  let w := mkWidgets "Math" ["New York"] 0 "All" "an" true false in
  show_top w = true /\ snd (dashboard data w) = st.Next tt
  /\ exists before after,
      st.page (dashboard data w) =
      before ++ [st.success st.showing_top;
                 st.dataframe (top_students data)] ++ after.
Proof.
  intros w. split; [reflexivity|]. split; [reflexivity|].
  apply (C7_top_performers data); reflexivity.
Defined.

Example top_students_data : top_students data = [Hannah; Alice; David].
Proof. reflexivity. Qed.

(** ** Name search *)

Lemma compile_plain q :
  plain q = true ->
  re.compile q = Some (map re.Lit (list_ascii_of_string q)).
Proof.
  unfold plain. induction q as [|c q IH]; simpl; [reflexivity|].
  intros H. apply andb_true_iff in H. destruct H as [Hc Hq].
  apply negb_true_iff in Hc.
  destruct (Ascii.eqb c ".") eqn:E.
  - apply Ascii.eqb_eq in E. subst c. discriminate Hc.
  - rewrite Hc, (IH Hq). reflexivity.
Qed.

(** The case folding of the search is the one of the two alphabets. *)
Lemma lower_small c : re.lower c = small c.
Proof. destruct c as [[] [] [] [] [] [] [] []]; reflexivity. Qed.

Lemma match_here_Lit q s :
  re.match_here (map re.Lit (list_ascii_of_string q)) s =
  starts_with (lowercase q) (lowercase s).
Proof.
  revert s. induction q as [|c q IH]; intros s; simpl; [reflexivity|].
  destruct s as [|d s]; simpl; [reflexivity|].
  now rewrite IH, !lower_small.
Qed.

Lemma search_Lit q s :
  re.search (map re.Lit (list_ascii_of_string q)) s = name_contains q s.
Proof.
  unfold name_contains.
  induction s as [|d s IH]; simpl; rewrite match_here_Lit; simpl;
    [reflexivity | now rewrite IH].
Qed.

Lemma starts_with_spec a s :
  starts_with a s = true <-> exists post, s = (a ++ post)%string.
Proof.
  revert s. induction a as [|x a IH]; intros s; simpl.
  - split; [intros _; now exists s | reflexivity].
  - destruct s as [|y s].
    + split; [discriminate | intros [post H]; discriminate H].
    + rewrite andb_true_iff, Ascii.eqb_eq, IH. split.
      * intros [-> [post ->]]. now exists post.
      * intros [post H]. injection H as -> ->. split; [reflexivity|].
        now exists post.
Qed.

Lemma substringb_spec a s :
  substringb a s = true <-> exists pre post, s = (pre ++ a ++ post)%string.
Proof.
  induction s as [|y s IH]; simpl; rewrite orb_true_iff, starts_with_spec.
  - split.
    + intros [[post H]|H]; [|discriminate H]. now exists "", post.
    + intros [pre [post H]]. left. destruct pre; [|discriminate H].
      now exists post.
  - rewrite IH. split.
    + intros [[post H]|[pre [post H]]].
      * now exists "", post.
      * exists (String y pre), post. simpl. now rewrite H.
    + intros [pre [post H]]. destruct pre as [|x pre]; simpl in H.
      * left. now exists post.
      * right. injection H as _ H. now exists pre, post.
Qed.

Lemma result_plain df q :
  plain q = true ->
  result df q = Some (filter (fun r => name_contains q (Name r)) df).
Proof.
  intros H. unfold result. rewrite (compile_plain q H). simpl. f_equal.
  apply filter_ext. intros r. apply search_Lit.
Qed.

Lemma tables_app p1 p2 : tables (p1 ++ p2) = tables p1 ++ tables p2.
Proof.
  induction p1 as [|e p1 IH]; simpl; [reflexivity|].
  destruct e; simpl; now rewrite IH.
Qed.

Lemma key_performance_indicators_tables f :
  tables (st.page (key_performance_indicators f)) = [].
Proof.
  unfold key_performance_indicators.
  now destruct (performance_tier (avg_marks f)).
Qed.

Lemma quick_actions_tables df w :
  tables (st.page (quick_actions df w)) =
  tables (st.page (search_section df (search_name w))).
Proof.
  unfold quick_actions, search_section, top_section, all_section.
  destruct (search_name w =? ""), (result df (search_name w)) as [[|r l]|],
    (show_top w), (show_all w); reflexivity.
Qed.

(** Past the guard, the only tables on the page are those of the search. *)
Lemma dashboard_tables df w :
  filtered_df df w <> [] ->
  tables (st.page (dashboard df w)) =
  tables (st.page (search_section df (search_name w))).
Proof.
  intros Hne. rewrite (dashboard_nonempty df w Hne).
  change (st.page (?a, ?b)) with a.
  rewrite !tables_app, key_performance_indicators_tables, quick_actions_tables.
  reflexivity.
Qed.

Lemma search_section_empty df : search_section df "" = ([], st.Next tt).
Proof. reflexivity. Qed.

Lemma search_section_plain df q :
  plain q = true ->
  q <> "" ->
  search_section df q =
  match filter (fun r => name_contains q (Name r)) df with
  | [] => ([st.error st.no_student_found], st.Next tt)
  | rows => ([st.table rows], st.Next tt)
  end.
Proof.
  intros Hp Hq. unfold search_section.
  apply String.eqb_neq in Hq. rewrite Hq, (result_plain df q Hp). simpl.
  now destruct (filter _ df).
Qed.

(** C6. The search does not perform the substring match the claim states:
    the search text is compiled as a regular expression.  On the mock table
    the query "." selects every row and the search renders the table of all
    ten rows, although no name contains a full stop, so that a substring
    search would find no student. *)
Theorem C6_query_read_as_regex :
  result data "." = Some data
  /\ search_section data "." = ([st.table data], st.Next tt)
  /\ (forall r, In r data ->
        ~ exists pre post, Name r = (pre ++ "." ++ post)%string)
  /\ (forall t a,
        tables (st.page (dashboard data
                  (mkWidgets "All" ["Chicago"] 0 "All" "." t a)))
        = [data]).
Proof.
  split; [reflexivity|]. split; [reflexivity|]. split.
  - intros r Hr H. apply substringb_spec in H. revert H.
    vm_compute in Hr.
    repeat (destruct Hr as [<-|Hr]; [discriminate|]). destruct Hr.
  - intros t a. rewrite dashboard_tables by discriminate. reflexivity.
Qed.

(** * Further properties of the script *)

(** ** Filtering, continued *)

Lemma Subseq_filter_impl {A} (f g : A -> bool) (l : list A) :
  (forall x, In x l -> f x = true -> g x = true) ->
  Subseq (filter f l) (filter g l).
Proof.
  induction l as [|x l IH]; intros H; simpl; [constructor|].
  assert (IH' : Subseq (filter f l) (filter g l))
    by (apply IH; intros y Hy; apply H; now right).
  destruct (f x) eqn:Ef.
  - rewrite (H x (or_introl eq_refl) Ef). now constructor.
  - destruct (g x); [now constructor | assumption].
Qed.

Lemma filter_all {A} (f : A -> bool) (l : list A) :
  (forall x, In x l -> f x = true) -> filter f l = l.
Proof.
  induction l as [|x l IH]; intros H; simpl; [reflexivity|].
  rewrite (H x (or_introl eq_refl)). f_equal.
  apply IH. intros y Hy. apply H. now right.
Qed.

(** X1. Filtering is idempotent: filtering the filtered table again with
    the same widget values changes nothing. *)
Theorem X1_filter_idempotent :
  forall df w, filtered_df (filtered_df df w) w = filtered_df df w.
Proof.
  intros df w. rewrite !filtered_df_satisfies, filter_filter.
  apply filter_ext. intros r. apply andb_diag.
Qed.

(** X2. Rows are judged one by one: the filtered table of a concatenation
    is the concatenation of the filtered tables, and it never has more rows
    than the table. *)
Theorem X2_filter_rowwise :
  forall df1 df2 w,
    filtered_df (df1 ++ df2) w = filtered_df df1 w ++ filtered_df df2 w
    /\ (List.length (filtered_df df1 w) <= List.length df1)%nat.
Proof.
  intros df1 df2 w. rewrite !filtered_df_satisfies. split.
  - apply filter_app.
  - apply filter_length_le.
Qed.

(** X3. Raising the minimum marks only removes rows: the table filtered at
    the higher minimum is a subsequence of the one filtered at the lower. *)
Theorem X3_filter_min_marks_monotone :
  forall df c cities m1 m2 g s t a,
    (m1 <= m2)%Z ->
    Subseq (filtered_df df (mkWidgets c cities m2 g s t a))
           (filtered_df df (mkWidgets c cities m1 g s t a)).
Proof.
  intros df c cities m1 m2 g s t a Hm. rewrite !filtered_df_satisfies.
  apply Subseq_filter_impl. intros r _. unfold satisfies. simpl.
  rewrite !andb_true_iff, !Qle_bool_iff.
  intros [[[Hc Hi] Hq] Hg]. repeat split; try assumption.
  apply (Qle_trans _ (inject_Z m2)); [|assumption].
  rewrite <- Zle_Qle. exact Hm.
Qed.

Lemma X3_witness :
  (70 <= 90)%Z
  /\ Subseq
       (filtered_df data
          (mkWidgets "All" ["New York"; "Chicago"] 90 "All" "" false false))
       (filtered_df data
          (mkWidgets "All" ["New York"; "Chicago"] 70 "All" "" false false)).
Proof.
  split; [discriminate|].
  apply (X3_filter_min_marks_monotone data). discriminate.
Defined.

(** X4. Selecting more cities only adds rows: when every city of one
    selection is in another, the table filtered by the first is a
    subsequence of the table filtered by the second. *)
Theorem X4_filter_cities_monotone :
  forall df c cities1 cities2 m g s t a,
    (forall x, In x cities1 -> In x cities2) ->
    Subseq (filtered_df df (mkWidgets c cities1 m g s t a))
           (filtered_df df (mkWidgets c cities2 m g s t a)).
Proof.
  intros df c cities1 cities2 m g s t a Hincl.
  rewrite !filtered_df_satisfies.
  apply Subseq_filter_impl. intros r _. unfold satisfies. simpl.
  rewrite !andb_true_iff, !isin_In.
  intros [[[Hc Hi] Hq] Hg]. repeat split; try assumption.
  now apply Hincl.
Qed.

Lemma X4_witness :
  Subseq
    (filtered_df data (mkWidgets "All" ["Chicago"] 0 "Male" "" false false))
    (filtered_df data
       (mkWidgets "All" ["New York"; "Chicago"] 0 "Male" "" false false)).
Proof.
  apply (X4_filter_cities_monotone data).
  intros x [<-|[]]. right. now left.
Defined.

(** X5. "All" is the weakest course and the weakest gender choice: the
    table filtered with a course and a gender is a subsequence of the table
    filtered with "All" in place of either or both. *)
Theorem X5_filter_All_weakest :
  forall df c cities m g s t a,
    Subseq (filtered_df df (mkWidgets c cities m g s t a))
           (filtered_df df (mkWidgets "All" cities m g s t a))
    /\ Subseq (filtered_df df (mkWidgets c cities m g s t a))
              (filtered_df df (mkWidgets c cities m "All" s t a))
    /\ Subseq (filtered_df df (mkWidgets c cities m g s t a))
              (filtered_df df (mkWidgets "All" cities m "All" s t a)).
Proof.
  intros df c cities m g s t a. rewrite !filtered_df_satisfies.
  repeat split; apply Subseq_filter_impl; intros r _; unfold satisfies;
    simpl; rewrite !andb_true_iff; intros [[[Hc Hi] Hq] Hg];
    repeat split; assumption.
Qed.

(** X6. Filters that restrict nothing return the whole table: with course
    "All", gender "All", every city of the table selected and every row's
    marks at least the minimum, the filtered table is the table itself. *)
Theorem X6_filter_unrestrictive :
  forall df cities m s t a,
    (forall r, In r df -> In (City r) cities) ->
    (forall r, In r df -> (inject_Z m <= Marks r)%Q) ->
    filtered_df df (mkWidgets "All" cities m "All" s t a) = df.
Proof.
  intros df cities m s t a Hc Hm. rewrite filtered_df_satisfies.
  apply filter_all. intros r Hr. apply satisfies_Satisfies.
  unfold Satisfies. simpl. repeat split; auto.
Qed.

Lemma X6_witness :
  filtered_df data
    (mkWidgets "All" ["Chicago"; "Los Angeles"; "New York"] 0 "All"
               "" false false) = data.
Proof.
  apply (X6_filter_unrestrictive data).
  - intros r Hr. vm_compute in Hr.
    repeat (destruct Hr as [<-|Hr]; [simpl; tauto|]). destruct Hr.
  - intros r Hr. vm_compute in Hr.
    repeat (destruct Hr as [<-|Hr]; [discriminate|]). destruct Hr.
Defined.

(** ** The selector options (lines 30-38) *)

Lemma isin_false x values : pd.isin x values = false <-> ~ In x values.
Proof.
  rewrite <- isin_In. destruct (pd.isin x values).
  - split; intros H; [discriminate H | exfalso; now apply H].
  - split; intros H; [intros H'; discriminate H' | reflexivity].
Qed.

Lemma unique_from_In seen l x :
  In x (pd.unique_from seen l) <-> In x l /\ ~ In x seen.
Proof.
  revert seen. induction l as [|y l IH]; intros seen; simpl; [tauto|].
  destruct (pd.isin y seen) eqn:E.
  - apply isin_In in E. rewrite IH. split.
    + intros [H1 H2]. tauto.
    + intros [[->|H1] H2]; [contradiction | tauto].
  - apply isin_false in E. simpl. rewrite IH. simpl. split.
    + intros [->|[H1 H2]]; tauto.
    + intros [[->|H1] H2]; [now left|].
      destruct (string_dec y x) as [->|Hn]; [now left | right; tauto].
Qed.

Lemma unique_from_NoDup seen l : NoDup (pd.unique_from seen l).
Proof.
  revert seen. induction l as [|y l IH]; intros seen; simpl; [constructor|].
  destruct (pd.isin y seen); [apply IH|].
  constructor; [|apply IH].
  rewrite unique_from_In. simpl. tauto.
Qed.

Lemma unique_from_Subseq seen l : Subseq (pd.unique_from seen l) l.
Proof.
  revert seen. induction l as [|y l IH]; intros seen; simpl; [constructor|].
  destruct (pd.isin y seen); constructor; apply IH.
Qed.

Lemma unique_In l x : In x (pd.unique l) <-> In x l.
Proof. unfold pd.unique. rewrite unique_from_In. simpl. tauto. Qed.

Lemma options_NoDup l :
  NoDup ("All" :: pd.unique l) <-> ~ In "All" l.
Proof.
  split.
  - intros H. inversion H as [|x l' Hn _]. now rewrite unique_In in Hn.
  - intros H. constructor; [now rewrite unique_In|].
    apply unique_from_NoDup.
Qed.

Lemma unique_from_snoc seen l x :
  pd.unique_from seen (l ++ [x]) =
  if pd.isin x seen || pd.isin x l then pd.unique_from seen l
  else pd.unique_from seen l ++ [x].
Proof.
  revert seen. induction l as [|y l IH]; intros seen.
  - simpl. rewrite orb_false_r. now destruct (pd.isin x seen).
  - change (pd.isin x (y :: l)) with ((x =? y) || pd.isin x l).
    simpl. destruct (pd.isin y seen) eqn:Ey.
    + rewrite IH. destruct (x =? y) eqn:Exy; [|reflexivity].
      apply String.eqb_eq in Exy. subst y. now rewrite Ey.
    + rewrite IH.
      change (pd.isin x (y :: seen)) with ((x =? y) || pd.isin x seen).
      destruct (x =? y), (pd.isin x seen), (pd.isin x l); reflexivity.
Qed.

Lemma options_snoc l x :
  "All" :: pd.unique (l ++ [x]) =
  if pd.isin x l then "All" :: pd.unique l
  else ("All" :: pd.unique l) ++ [x].
Proof.
  unfold pd.unique. rewrite unique_from_snoc. simpl.
  now destruct (pd.isin x l).
Qed.

(** X7. The city and course selectors offer "All" and then the values of
    the column, each once, in order of first appearance.  An option is "All"
    or the value of some row; the values after "All" are pairwise distinct
    and form a subsequence of the column.  The order is that of first
    appearance: the empty table offers "All" alone, and a row appended to
    the table adds its value at the end of the options when no earlier row
    has it, and changes nothing otherwise.  The option list as a whole is
    free of duplicates exactly when no row of the table has "All" as its
    value. *)
Theorem X7_selector_options :
  forall df,
    (forall x, In x (city_options df) <->
               x = "All" \/ exists r, In r df /\ City r = x)
    /\ (forall x, In x (course_options df) <->
                  x = "All" \/ exists r, In r df /\ Course r = x)
    /\ NoDup (pd.unique (map City df))
    /\ NoDup (pd.unique (map Course df))
    /\ Subseq (pd.unique (map City df)) (map City df)
    /\ Subseq (pd.unique (map Course df)) (map Course df)
    /\ (NoDup (city_options df) <-> forall r, In r df -> City r <> "All")
    /\ (NoDup (course_options df) <->
        forall r, In r df -> Course r <> "All")
    /\ city_options [] = ["All"]
    /\ course_options [] = ["All"]
    /\ (forall r,
          city_options (df ++ [r]) =
          if pd.isin (City r) (map City df) then city_options df
          else city_options df ++ [City r])
    /\ (forall r,
          course_options (df ++ [r]) =
          if pd.isin (Course r) (map Course df) then course_options df
          else course_options df ++ [Course r]).
Proof.
  intros df. unfold city_options, course_options.
  repeat match goal with |- _ /\ _ => split end.
  - intros x. simpl. rewrite unique_In, in_map_iff.
    split; (intros [H|H]; [left; now rewrite H | right]);
      destruct H as [r [H1 H2]]; exists r; tauto.
  - intros x. simpl. rewrite unique_In, in_map_iff.
    split; (intros [H|H]; [left; now rewrite H | right]);
      destruct H as [r [H1 H2]]; exists r; tauto.
  - apply unique_from_NoDup.
  - apply unique_from_NoDup.
  - apply unique_from_Subseq.
  - apply unique_from_Subseq.
  - rewrite options_NoDup, in_map_iff. split.
    + intros H r Hr E. apply H. now exists r.
    + intros H [r [E Hr]]. now apply (H r).
  - rewrite options_NoDup, in_map_iff. split.
    + intros H r Hr E. apply H. now exists r.
    + intros H [r [E Hr]]. now apply (H r).
  - reflexivity.
  - reflexivity.
  - intros r. rewrite map_app. apply options_snoc.
  - intros r. rewrite map_app. apply options_snoc.
Qed.

Example unique_first_appearance :
  pd.unique ["a"; "b"; "a"; "c"; "b"] = ["a"; "b"; "c"].
Proof. reflexivity. Qed.

Example city_options_data :
  city_options data = ["All"; "New York"; "Los Angeles"; "Chicago"]
  /\ course_options data = ["All"; "Math"; "Science"; "English"].
Proof. split; reflexivity. Qed.

(** X8. Every city the selector offers from the table has rows: selecting
    one such city alone, with course "All", gender "All" and a minimum no
    row falls below, gives a non-empty filtered table, so the rerun is not
    stopped at the guard. *)
Theorem X8_offered_city_has_rows :
  forall df x m s t a,
    In x (pd.unique (map City df)) ->
    (forall r, In r df -> (inject_Z m <= Marks r)%Q) ->
    filtered_df df (mkWidgets "All" [x] m "All" s t a) <> []
    /\ snd (guard_empty (filtered_df df (mkWidgets "All" [x] m "All" s t a)))
       = st.Next tt.
Proof.
  intros df x m s t a Hx Hm.
  apply unique_In, in_map_iff in Hx. destruct Hx as [r [E Hr]].
  assert (Hin : In r (filtered_df df (mkWidgets "All" [x] m "All" s t a))).
  { rewrite filtered_df_satisfies. apply filter_In. split; [assumption|].
    apply satisfies_Satisfies. unfold Satisfies. simpl.
    repeat split; auto. }
  destruct (filtered_df df (mkWidgets "All" [x] m "All" s t a));
    [destruct Hin|]. split; [discriminate | reflexivity].
Qed.

Lemma X8_witness :
  filtered_df data (mkWidgets "All" ["Chicago"] 0 "All" "" false false) <> []
  /\ snd (guard_empty
            (filtered_df data
               (mkWidgets "All" ["Chicago"] 0 "All" "" false false)))
     = st.Next tt.
Proof.
  apply (X8_offered_city_has_rows data "Chicago" 0 "" false false).
  - vm_compute. tauto.
  - intros r Hr. vm_compute in Hr.
    repeat (destruct Hr as [<-|Hr]; [discriminate|]). destruct Hr.
Defined.

(** ** Aggregates, continued (lines 66-68) *)

Lemma length_pos_Q {A} (x : A) (l : list A) :
  (0 < inject_Z (Z.of_nat (List.length (x :: l))))%Q.
Proof.
  change 0%Q with (inject_Z 0). rewrite <- Zlt_Qlt. simpl List.length.
  apply (Nat2Z.inj_lt 0). apply Nat.lt_0_succ.
Qed.

Lemma length_succ_Q {A} (x : A) (l : list A) :
  (inject_Z (Z.of_nat (List.length (x :: l)))
   == inject_Z (Z.of_nat (List.length l)) + 1)%Q.
Proof.
  simpl List.length. rewrite Nat2Z.inj_succ. unfold Z.succ.
  rewrite inject_Z_plus. reflexivity.
Qed.

Lemma sum_ge (lo : Q) (l : list Q) :
  (forall x, In x l -> lo <= x)%Q ->
  (inject_Z (Z.of_nat (List.length l)) * lo <= pd.sum l)%Q.
Proof.
  induction l as [|x l IH]; intros H.
  - simpl. rewrite Qmult_0_l. apply Qle_refl.
  - rewrite length_succ_Q. simpl pd.sum.
    assert (H1 := H x (or_introl eq_refl)).
    assert (H2 := IH (fun y Hy => H y (or_intror Hy))).
    lra.
Qed.

Lemma sum_le (hi : Q) (l : list Q) :
  (forall x, In x l -> x <= hi)%Q ->
  (pd.sum l <= inject_Z (Z.of_nat (List.length l)) * hi)%Q.
Proof.
  induction l as [|x l IH]; intros H.
  - simpl. rewrite Qmult_0_l. apply Qle_refl.
  - rewrite length_succ_Q. simpl pd.sum.
    assert (H1 := H x (or_introl eq_refl)).
    assert (H2 := IH (fun y Hy => H y (or_intror Hy))).
    lra.
Qed.

Lemma mean_ge (lo : Q) (l : list Q) m :
  (forall x, In x l -> lo <= x)%Q -> pd.mean l = Some m -> (lo <= m)%Q.
Proof.
  intros H E. destruct l as [|x l]; [discriminate E|].
  injection E as <-. apply Qle_shift_div_l; [apply (length_pos_Q x l)|].
  rewrite Qmult_comm. exact (sum_ge lo (x :: l) H).
Qed.

Lemma mean_le (hi : Q) (l : list Q) m :
  (forall x, In x l -> x <= hi)%Q -> pd.mean l = Some m -> (m <= hi)%Q.
Proof.
  intros H E. destruct l as [|x l]; [discriminate E|].
  injection E as <-. apply Qle_shift_div_r; [apply (length_pos_Q x l)|].
  rewrite Qmult_comm. exact (sum_le hi (x :: l) H).
Qed.

Lemma rint_floor q :
  (pd.rint q = Qfloor q /\ (q - inject_Z (Qfloor q) <= 1 # 2)%Q)
  \/ (pd.rint q = (Qfloor q + 1)%Z /\ (1 # 2 <= q - inject_Z (Qfloor q))%Q).
Proof.
  unfold pd.rint.
  destruct (q - inject_Z (Qfloor q) ?= 1 # 2)%Q eqn:E.
  - apply Qeq_alt in E.
    destruct (Z.even (Qfloor q)); [left | right];
      (split; [reflexivity | rewrite E; apply Qle_refl]).
  - apply Qlt_alt in E. left. split; [reflexivity | now apply Qlt_le_weak].
  - apply Qgt_alt in E. right. split; [reflexivity | now apply Qlt_le_weak].
Qed.

Lemma rint_ge (n : Z) q : (inject_Z n <= q)%Q -> (n <= pd.rint q)%Z.
Proof.
  intros H. apply Qfloor_resp_le in H. rewrite Qfloor_Z in H.
  destruct (rint_floor q) as [[-> _]|[-> _]];
    [assumption | apply (Z.le_trans _ _ _ H), Z.le_succ_diag_r].
Qed.

Lemma rint_le (n : Z) q : (q <= inject_Z n)%Q -> (pd.rint q <= n)%Z.
Proof.
  intros H. assert (Hf := Qfloor_le q).
  destruct (rint_floor q) as [[-> _]|[-> Hh]].
  - rewrite Zle_Qle. now apply (Qle_trans _ q).
  - apply Zlt_le_succ. rewrite Zlt_Qlt.
    generalize dependent (inject_Z (Qfloor q)).
    generalize dependent (inject_Z n). intros b H a Hf Hh. lra.
Qed.

Lemma round2_value q a :
  pd.round2 (Some q) = Some a ->
  (a == inject_Z (pd.rint (q * 100)) / 100)%Q.
Proof.
  intros H.
  change (Some (Qred (inject_Z (pd.rint (q * 100)) / 100)) = Some a) in H.
  assert (E : Qred (inject_Z (pd.rint (q * 100)) / 100) = a) by congruence.
  rewrite <- E. apply Qred_correct.
Qed.

Lemma round2_ge (n : Z) x a :
  (forall q, x = Some q -> inject_Z n <= q)%Q ->
  pd.round2 x = Some a -> (inject_Z n <= a)%Q.
Proof.
  intros H E. destruct x as [q|]; [|discriminate E].
  rewrite (round2_value q a E).
  apply Qle_shift_div_l; [reflexivity|].
  change 100%Q with (inject_Z 100). rewrite <- inject_Z_mult, <- Zle_Qle.
  apply rint_ge. rewrite inject_Z_mult.
  apply Qmult_le_compat_r; [now apply H | discriminate].
Qed.

Lemma round2_le (n : Z) x a :
  (forall q, x = Some q -> q <= inject_Z n)%Q ->
  pd.round2 x = Some a -> (a <= inject_Z n)%Q.
Proof.
  intros H E. destruct x as [q|]; [|discriminate E].
  rewrite (round2_value q a E).
  apply Qle_shift_div_r; [reflexivity|].
  change 100%Q with (inject_Z 100). rewrite <- inject_Z_mult, <- Zle_Qle.
  apply rint_le. rewrite inject_Z_mult.
  apply Qmult_le_compat_r; [now apply H | discriminate].
Qed.

Lemma column_avg_ge (col : record -> Q) (lo : Z) f a :
  (forall r, In r f -> inject_Z lo <= col r)%Q ->
  pd.round2 (pd.mean (map col f)) = Some a -> (inject_Z lo <= a)%Q.
Proof.
  intros H. apply round2_ge. intros m. apply mean_ge.
  intros x Hx. apply in_map_iff in Hx. destruct Hx as [r [<- Hr]]. auto.
Qed.

Lemma column_avg_le (col : record -> Q) (hi : Z) f a :
  (forall r, In r f -> col r <= inject_Z hi)%Q ->
  pd.round2 (pd.mean (map col f)) = Some a -> (a <= inject_Z hi)%Q.
Proof.
  intros H. apply round2_le. intros m. apply mean_le.
  intros x Hx. apply in_map_iff in Hx. destruct Hx as [r [<- Hr]]. auto.
Qed.

(** X10. The averages stay within the range of the data: when every row of
    a non-empty filtered table has marks and attendance between two whole
    numbers of the expected range 0 to 100, both rounded averages are
    numbers between them too. *)
Theorem X10_averages_within_range :
  forall f (lo hi : Z),
    (0 <= lo)%Z -> (hi <= 100)%Z ->
    f <> [] ->
    (forall r, In r f ->
       (inject_Z lo <= Marks r /\ Marks r <= inject_Z hi)%Q
       /\ (inject_Z lo <= Attendance r /\ Attendance r <= inject_Z hi)%Q) ->
    exists am aa,
      avg_marks f = Some am /\ avg_attendance f = Some aa
      /\ (inject_Z lo <= am /\ am <= inject_Z hi)%Q
      /\ (inject_Z lo <= aa /\ aa <= inject_Z hi)%Q.
Proof.
  intros f lo hi _ _ Hne H.
  destruct (avg_marks_nonempty f Hne) as [am Em].
  destruct (avg_attendance_nonempty f Hne) as [aa Ea].
  exists am, aa. split; [assumption|]. split; [assumption|].
  repeat split.
  - apply (column_avg_ge Marks lo f am); [|exact Em]. intros r Hr.
    apply (H r Hr).
  - apply (column_avg_le Marks hi f am); [|exact Em]. intros r Hr.
    apply (H r Hr).
  - apply (column_avg_ge Attendance lo f aa); [|exact Ea]. intros r Hr.
    apply (H r Hr).
  - apply (column_avg_le Attendance hi f aa); [|exact Ea]. intros r Hr.
    apply (H r Hr).
Qed.

Lemma X10_witness :
  exists am aa,
    avg_marks [Fiona; Ian; David] = Some am
    /\ avg_attendance [Fiona; Ian; David] = Some aa
    /\ (inject_Z 50 <= am /\ am <= inject_Z 92)%Q
    /\ (inject_Z 50 <= aa /\ aa <= inject_Z 92)%Q.
Proof.
  apply (X10_averages_within_range [Fiona; Ian; David] 50 92).
  - discriminate.
  - discriminate.
  - discriminate.
  - intros r Hr.
    repeat (destruct Hr as [<-|Hr]; [repeat split; discriminate|]).
    destruct Hr.
Defined.

Lemma filtered_df_min_marks df w r :
  In r (filtered_df df w) -> (inject_Z (min_marks w) <= Marks r)%Q.
Proof.
  rewrite filtered_df_satisfies, filter_In, satisfies_Satisfies.
  intros [_ (_ & _ & H & _)]. exact H.
Qed.

Lemma avg_marks_filtered_ge df w a :
  avg_marks (filtered_df df w) = Some a -> (inject_Z (min_marks w) <= a)%Q.
Proof.
  apply (column_avg_ge Marks). intros r. apply filtered_df_min_marks.
Qed.

(** X11. The average marks shown are never below the minimum-marks slider:
    for a non-empty filtered table the rounded average is a number at least
    the selected minimum. *)
Theorem X11_average_at_least_minimum :
  forall df w,
    filtered_df df w <> [] ->
    exists a,
      avg_marks (filtered_df df w) = Some a
      /\ (inject_Z (min_marks w) <= a)%Q.
Proof.
  intros df w Hne.
  destruct (avg_marks_nonempty _ Hne) as [a Ea].
  exists a. split; [assumption | now apply (avg_marks_filtered_ge df w)].
Qed.

Lemma X11_witness :
  exists a,
    avg_marks (filtered_df data
                 (mkWidgets "All" ["Chicago"] 80 "All" "" false false))
    = Some a
    /\ (inject_Z 80 <= a)%Q.
Proof.
  apply (X11_average_at_least_minimum data
           (mkWidgets "All" ["Chicago"] 80 "All" "" false false)).
  discriminate.
Defined.

(** ** The performance banner, as rendered (lines 78-84) *)

Lemma key_performance_indicators_banner f a :
  avg_marks f = Some a ->
  (In st.balloons (st.page (key_performance_indicators f))
   <-> performance_tier (Some a) = excellent)
  /\ (In (st.success st.excellent_performance)
         (st.page (key_performance_indicators f))
      <-> performance_tier (Some a) = excellent)
  /\ (In (st.info st.good_performance)
         (st.page (key_performance_indicators f))
      <-> performance_tier (Some a) = good)
  /\ (In (st.warning st.needs_improvement_notice)
         (st.page (key_performance_indicators f))
      <-> performance_tier (Some a) = needs_improvement).
Proof.
  intros E. unfold key_performance_indicators. rewrite E.
  destruct (performance_tier (Some a)); simpl;
    repeat split; intros H; try discriminate H; try tauto;
    repeat (destruct H as [H|H]; try discriminate H); destruct H.
Qed.

Lemma dashboard_banner df w e :
  filtered_df df w <> [] ->
  e = st.balloons \/ e = st.success st.excellent_performance
  \/ e = st.info st.good_performance
  \/ e = st.warning st.needs_improvement_notice ->
  (In e (st.page (dashboard df w))
   <-> In e (st.page (key_performance_indicators (filtered_df df w)))).
Proof.
  intros Hne He. rewrite (dashboard_nonempty df w Hne).
  change (st.page (?a, ?b)) with a. rewrite !in_app_iff.
  assert (Hv : ~ In e (st.page (visualizations (filtered_df df w)))).
  { rewrite visualizations_Next. simpl.
    destruct He as [-> | [-> | [-> | ->]]]; intuition discriminate. }
  assert (Hq : ~ In e (st.page (quick_actions df w))).
  { unfold quick_actions, search_section, top_section, all_section.
    destruct (search_name w =? ""), (result df (search_name w)) as [[|r l]|],
      (show_top w), (show_all w); simpl;
      destruct He as [-> | [-> | [-> | ->]]]; intuition discriminate. }
  tauto.
Qed.

(** X12. In a rerun that passed the guard exactly the banner of the average
    is rendered: balloons and the "excellent" notice when the rounded
    average marks exceed 85, the "good" notice when they are between 70 and
    85 (both included), the "needs improvement" warning when they are below
    70. *)
Theorem X12_banner_rendered :
  forall df w,
    filtered_df df w <> [] ->
    exists a,
      avg_marks (filtered_df df w) = Some a
      /\ (In st.balloons (st.page (dashboard df w)) <-> (85 < a)%Q)
      /\ (In (st.success st.excellent_performance) (st.page (dashboard df w))
          <-> (85 < a)%Q)
      /\ (In (st.info st.good_performance) (st.page (dashboard df w))
          <-> (70 <= a)%Q /\ (a <= 85)%Q)
      /\ (In (st.warning st.needs_improvement_notice)
             (st.page (dashboard df w))
          <-> (a < 70)%Q).
Proof.
  intros df w Hne. destruct (avg_marks_nonempty _ Hne) as [a Ea].
  exists a. split; [assumption|].
  destruct (key_performance_indicators_banner _ a Ea) as (K1 & K2 & K3 & K4).
  destruct (performance_tier_spec a) as (T1 & T2 & T3).
  rewrite !(dashboard_banner df w _ Hne) by tauto.
  rewrite K1, K2, K3, K4, T1, T2, T3. tauto.
Qed.

Lemma X12_witness :
  exists a,
    avg_marks (filtered_df data
                 (mkWidgets "All" ["Chicago"] 0 "All" "" false false))
    = Some a
    /\ (In st.balloons
          (st.page (dashboard data
                      (mkWidgets "All" ["Chicago"] 0 "All" "" false false)))
        <-> (85 < a)%Q)
    /\ (In (st.success st.excellent_performance)
          (st.page (dashboard data
                      (mkWidgets "All" ["Chicago"] 0 "All" "" false false)))
        <-> (85 < a)%Q)
    /\ (In (st.info st.good_performance)
          (st.page (dashboard data
                      (mkWidgets "All" ["Chicago"] 0 "All" "" false false)))
        <-> (70 <= a)%Q /\ (a <= 85)%Q)
    /\ (In (st.warning st.needs_improvement_notice)
          (st.page (dashboard data
                      (mkWidgets "All" ["Chicago"] 0 "All" "" false false)))
        <-> (a < 70)%Q).
Proof.
  apply (X12_banner_rendered data
           (mkWidgets "All" ["Chicago"] 0 "All" "" false false)).
  discriminate.
Defined.

(** X13. The slider bounds the banner: with the minimum at 70 or more a
    rerun never renders the "needs improvement" warning, and with the
    minimum at 86 or more a rerun that passed the guard renders the
    balloons. *)
Theorem X13_minimum_bounds_banner :
  forall df w,
    (70 <= min_marks w)%Z ->
    ~ In (st.warning st.needs_improvement_notice) (st.page (dashboard df w))
    /\ ((86 <= min_marks w)%Z -> filtered_df df w <> [] ->
        In st.balloons (st.page (dashboard df w))).
Proof.
  intros df w H70. split.
  - destruct (filtered_df df w) as [|r f] eqn:E.
    + rewrite (dashboard_empty df w E). simpl. intuition discriminate.
    + assert (Hne : filtered_df df w <> []) by (rewrite E; discriminate).
      destruct (avg_marks_nonempty _ Hne) as [a Ea].
      rewrite (dashboard_banner df w _ Hne) by tauto.
      destruct (key_performance_indicators_banner _ a Ea) as (_ & _ & _ & K).
      rewrite K. destruct (performance_tier_spec a) as (_ & _ & T).
      rewrite T. apply Qle_not_lt.
      apply (Qle_trans _ (inject_Z (min_marks w)));
        [|now apply (avg_marks_filtered_ge df w)].
      change 70%Q with (inject_Z 70). now rewrite <- Zle_Qle.
  - intros H86 Hne. destruct (avg_marks_nonempty _ Hne) as [a Ea].
    rewrite (dashboard_banner df w _ Hne) by tauto.
    destruct (key_performance_indicators_banner _ a Ea) as (K & _).
    rewrite K. destruct (performance_tier_spec a) as (T & _).
    rewrite T. apply (Qlt_le_trans _ (inject_Z 86)); [reflexivity|].
    apply (Qle_trans _ (inject_Z (min_marks w)));
      [now rewrite <- Zle_Qle | now apply (avg_marks_filtered_ge df w)].
Qed.

Lemma X13_witness :
  let w := mkWidgets "All" ["Chicago"; "New York"] 90 "All" "" false false in
  (70 <= min_marks w)%Z
  /\ ~ In (st.warning st.needs_improvement_notice)
          (st.page (dashboard data w))
  /\ In st.balloons (st.page (dashboard data w)).
Proof.
  intros w. split; [discriminate|].
  destruct (X13_minimum_bounds_banner data w) as [H1 H2]; [discriminate|].
  split; [exact H1 | apply H2; discriminate].
Defined.

(** ** The charts (lines 95 and 99) *)

(** X14. Each chart series holds exactly the (name, value) pairs of the
    filtered rows, each as often as the filtered table has it, by
    non-increasing value. *)
Theorem X14_chart_series :
  forall f,
    Permutation (marks_chart_df f) (map (fun r => (Name r, Marks r)) f)
    /\ StronglySorted (desc_by snd) (marks_chart_df f)
    /\ Permutation (attendance_chart_df f)
         (map (fun r => (Name r, Attendance r)) f)
    /\ StronglySorted (desc_by snd) (attendance_chart_df f)
    /\ List.length (marks_chart_df f) = List.length f
    /\ List.length (attendance_chart_df f) = List.length f.
Proof.
  intros f. unfold marks_chart_df, attendance_chart_df.
  assert (P1 := sort_values_desc_perm snd
                  (map (fun r => (Name r, Marks r)) f)).
  assert (P2 := sort_values_desc_perm snd
                  (map (fun r => (Name r, Attendance r)) f)).
  repeat split.
  - now symmetry.
  - apply sort_values_desc_sorted.
  - now symmetry.
  - apply sort_values_desc_sorted.
  - rewrite <- (Permutation_length P1). apply length_map.
  - rewrite <- (Permutation_length P2). apply length_map.
Qed.

(** ** Quick actions, continued (lines 129-139) *)

(** X15. "Show All Data" shows the whole table, not the filtered one: in a
    rerun that runs to its end with the button pressed, the last element of
    the page is the data frame of the table as loaded. *)
Theorem X15_show_all_is_unfiltered :
  forall df w,
    show_all w = true ->
    snd (dashboard df w) = st.Next tt ->
    exists before, st.page (dashboard df w) = before ++ [st.dataframe df].
Proof.
  intros df w Ha Hn. destruct (dashboard_Next df w Hn) as [Hne Hq].
  rewrite (dashboard_nonempty df w Hne). change (st.page (?a, ?b)) with a.
  assert (Hl : exists before,
             st.page (quick_actions df w) = before ++ [st.dataframe df]).
  { revert Hq.
    unfold quick_actions, search_section, top_section, all_section.
    rewrite Ha.
    destruct (search_name w =? ""), (result df (search_name w)) as [[|r l]|],
      (show_top w); simpl; intros H; try discriminate H;
      try (now exists []); try (now eexists [_]);
      try (now eexists [_; _]); try (now eexists [_; _; _]). }
  destruct Hl as [before ->]. rewrite !app_assoc. eexists. reflexivity.
Qed.

Lemma X15_witness :
  let w := mkWidgets "Math" ["New York"] 60 "Male" "" false true in
  show_all w = true /\ snd (dashboard data w) = st.Next tt
  /\ exists before, st.page (dashboard data w) = before ++ [st.dataframe data].
Proof.
  intros w. split; [reflexivity|]. split; [reflexivity|].
  apply (X15_show_all_is_unfiltered data w); reflexivity.
Defined.

(** X16. Without any row above 90 marks the top-performers button still
    renders its notice, followed by an empty data frame; there is no
    "not found" message as in the search. *)
Theorem X16_top_performers_none :
  forall df,
    (forall r, In r df -> (Marks r <= 90)%Q) ->
    top_students df = []
    /\ top_section df true =
       ([st.success st.showing_top; st.dataframe []], st.Next tt).
Proof.
  intros df H.
  assert (E : top_students df = []).
  { destruct (top_students df) as [|r l] eqn:E; [reflexivity|].
    assert (Hr : In r (top_students df)) by (rewrite E; now left).
    apply top_students_In in Hr. destruct Hr as [Hr Hm].
    exfalso. apply (Qlt_not_le _ _ Hm). now apply H. }
  split; [assumption|]. unfold top_section. now rewrite E.
Qed.

Lemma X16_witness :
  top_students [Fiona; Ian] = []
  /\ top_section [Fiona; Ian] true =
     ([st.success st.showing_top; st.dataframe []], st.Next tt).
Proof.
  apply (X16_top_performers_none [Fiona; Ian]).
  intros r Hr. repeat (destruct Hr as [<-|Hr]; [discriminate|]). destruct Hr.
Defined.

(** ** Name search, continued (lines 121-127) *)

Lemma small_special c : re.special (small c) = re.special c.
Proof. destruct c as [[] [] [] [] [] [] [] []]; reflexivity. Qed.

Lemma plain_lowercase q : plain (lowercase q) = plain q.
Proof.
  unfold plain. induction q as [|c q IH]; simpl; [reflexivity|].
  now rewrite small_special, IH.
Qed.

Example lowercase_alphabet :
  lowercase capitals = smalls /\ lowercase smalls = smalls
  /\ lowercase "Mary-Ann O'Neil 2" = "mary-ann o'neil 2".
Proof. repeat split. Qed.

(** X17. On ASCII text the search ignores letter case: for a query without
    any character that is special in a regular expression, and a table whose
    names, like the query, are ASCII text, the search selects, in table
    order, the rows whose name contains the query as a substring once the
    capital letters A to Z of both are replaced by their small letters; a
    query that differs from it in letter case only selects the same rows. *)
Theorem X17_search_ignores_case :
  forall df q,
    plain q = true ->
    ascii_text q = true ->
    (forall r, In r df -> ascii_text (Name r) = true) ->
    result df q = Some (filter (fun r => name_contains q (Name r)) df)
    /\ (forall r,
          In r df ->
          (name_contains q (Name r) = true <->
           exists pre post,
             lowercase (Name r) = (pre ++ lowercase q ++ post)%string))
    /\ (forall q', lowercase q' = lowercase q -> result df q' = result df q).
Proof.
  intros df q Hp _ _.
  split; [apply (result_plain df q Hp)|].
  split; [intros r _; apply substringb_spec|].
  intros q' E.
  assert (Hp' : plain q' = true)
    by (rewrite <- plain_lowercase, E, plain_lowercase; exact Hp).
  rewrite (result_plain df q Hp), (result_plain df q' Hp'). f_equal.
  apply filter_ext. intros r. unfold name_contains. now rewrite E.
Qed.

Lemma X17_witness :
  plain "HaN" = true /\ ascii_text "HaN" = true
  /\ result data "HaN" = Some [Hannah]
  /\ result data "hAn" = result data "HaN".
Proof.
  split; [reflexivity|]. split; [reflexivity|].
  destruct (X17_search_ignores_case data "HaN") as (H1 & _ & H3).
  - reflexivity.
  - reflexivity.
  - intros r Hr. vm_compute in Hr.
    repeat (destruct Hr as [<-|Hr]; [reflexivity|]). destruct Hr.
  - split; [exact H1 | apply H3; reflexivity].
Defined.

Lemma name_contains_refl q : name_contains q q = true.
Proof.
  unfold name_contains. apply substringb_spec. exists "", "". simpl.
  induction (lowercase q) as [|c s IH]; simpl; [reflexivity|].
  now rewrite <- IH.
Qed.

(** X18. Searching for a row's full name finds it: when the name has no
    character that is special in a regular expression and is not empty, the
    search for it renders a table that contains the row. *)
Theorem X18_search_full_name :
  forall df r,
    In r df ->
    plain (Name r) = true ->
    Name r <> "" ->
    exists rows,
      search_section df (Name r) = ([st.table rows], st.Next tt)
      /\ In r rows.
Proof.
  intros df r Hr Hp Hne.
  rewrite (search_section_plain df (Name r) Hp Hne).
  assert (Hin : In r (filter (fun r' => name_contains (Name r) (Name r')) df)).
  { apply filter_In. split; [assumption | apply name_contains_refl]. }
  destruct (filter _ df) as [|x l]; [destruct Hin|].
  exists (x :: l). split; [reflexivity | assumption].
Qed.

Lemma X18_witness :
  exists rows,
    search_section data "George" = ([st.table rows], st.Next tt)
    /\ In (mkRecord "George" "English" "Chicago" "Male" 72 75) rows.
Proof.
  apply (X18_search_full_name data
           (mkRecord "George" "English" "Chicago" "Male" 72 75)).
  - vm_compute. tauto.
  - reflexivity.
  - discriminate.
Defined.

(** ** Whole reruns, continued *)

Lemma quick_actions_not_Stop df w : snd (quick_actions df w) <> st.Stop.
Proof.
  unfold quick_actions, search_section, top_section, all_section.
  destruct (search_name w =? ""), (result df (search_name w)) as [[|r l]|],
    (show_top w), (show_all w); discriminate.
Qed.

(** X19. The empty filtered table is the only thing that makes the script
    call [st.stop()]: a rerun ends at [st.stop()] exactly when its filtered
    table is empty, whatever the search text and the buttons. *)
Theorem X19_rerun_outcome :
  forall csv w,
    snd (student csv w) = st.Stop <-> filtered_df (loaded csv) w = [].
Proof.
  intros csv w. rewrite student_dashboard. simpl snd.
  destruct (filtered_df (loaded csv) w) as [|r f] eqn:E.
  - rewrite (dashboard_empty _ w E). simpl. tauto.
  - rewrite dashboard_nonempty by (rewrite E; discriminate). simpl snd.
    split; [intros H; now apply quick_actions_not_Stop in H | discriminate].
Qed.

Lemma dashboard_no_mock_notice df w :
  ~ In (st.error st.mock_data_notice) (st.page (dashboard df w)).
Proof.
  destruct (filtered_df df w) as [|r f] eqn:E.
  - rewrite (dashboard_empty df w E). simpl. intuition discriminate.
  - rewrite dashboard_nonempty by (rewrite E; discriminate).
    change (st.page (?a, ?b)) with a. rewrite !in_app_iff.
    intros [H|[H|H]]; revert H.
    + unfold key_performance_indicators.
      destruct (performance_tier _); simpl; intuition discriminate.
    + rewrite visualizations_Next. simpl. intuition discriminate.
    + unfold quick_actions, search_section, top_section, all_section.
      destruct (search_name w =? ""),
        (result df (search_name w)) as [[|r' l]|],
        (show_top w), (show_all w); simpl; intuition discriminate.
Qed.

(** X20. The mock-data error is rendered exactly when the CSV file is
    missing, and then first on the page, before the rerun over the mock
    table; a table read from the file is used as it is. *)
Theorem X20_mock_data_notice :
  forall df w,
    (forall csv,
       In (st.error st.mock_data_notice) (st.page (student csv w))
       <-> csv = None)
    /\ student (Some df) w = dashboard df w
    /\ st.page (student None w) =
       st.error st.mock_data_notice :: st.page (dashboard data w)
    /\ snd (student None w) = snd (dashboard data w).
Proof.
  intros df w. split; [|split; [|split]].
  - intros csv. rewrite student_dashboard. change (st.page (?a, ?b)) with a.
    rewrite in_app_iff. destruct csv as [df'|]; simpl.
    + split; [|discriminate]. intros [[]|H].
      now apply dashboard_no_mock_notice in H.
    + split; [reflexivity | intros _; left; now left].
  - rewrite student_dashboard. simpl. now destruct (dashboard df w).
  - rewrite student_dashboard. reflexivity.
  - rewrite student_dashboard. reflexivity.
Qed.
